(** * Background service worker of the speed-test extension

    A shallow embedding of [background.js] (the service worker:
    [persistResult], [categorizeError], [startCloudflareSpeedTest] and the
    runtime message listener) and of the [onFinish] handler of the
    Cloudflare speed-test wrapper ([createSpeedTest]).

    JavaScript values are the inductive [jsval]; numbers are IEEE-754
    binary64 values, represented by the Standard Library's [spec_float]
    (so that [NaN], [Infinity] and [-0] exist).  The global [STATE] object is
    a record, and the side effects of the worker (messages sent with
    [chrome.runtime.sendMessage], timers armed with [setTimeout], calls of
    the engine's [start] and the [results] key of [chrome.storage.local])
    are fields of an explicit world threaded through every handler. *)

From Stdlib Require Import ZArith List String Ascii Bool Lia.
From Stdlib Require Import Floats.SpecFloat.
Import ListNotations.
Open Scope string_scope.
Open Scope list_scope.
Set Warnings "-register-all".

(** ** JavaScript values *)

Inductive jsval : Type :=
| JUndef
| JNull
| JBool (b : bool)
| JNum (f : spec_float)
| JStr (s : string)
| JArr (items : list jsval)
| JObj (fields : list (string * jsval)).

(** binary64 parameters *)
Definition prec : Z := 53.
Definition emax : Z := 1024.

(** [Number.isFinite] on a number *)
Definition isFinite (f : spec_float) : bool :=
  match f with
  | S754_zero _ | S754_finite _ _ _ => true
  | S754_infinity _ | S754_nan => false
  end.

Definition NaN : jsval := JNum S754_nan.
Definition Infinity : jsval := JNum (S754_infinity false).

(** A non-negative integer literal as a binary64 value. *)
Definition num_of_Z (z : Z) : spec_float := binary_normalize prec emax z 0 false.

(** [typeof v] *)
Definition typeof (v : jsval) : string :=
  match v with
  | JUndef => "undefined"
  | JNull => "object"
  | JBool _ => "boolean"
  | JNum _ => "number"
  | JStr _ => "string"
  | JArr _ => "object"
  | JObj _ => "object"
  end.

(** Truthiness, as tested by [if], [&&] and [||]. *)
Definition truthy (v : jsval) : bool :=
  match v with
  | JUndef | JNull => false
  | JBool b => b
  | JNum (S754_zero _) | JNum S754_nan => false
  | JNum _ => true
  | JStr s => negb (String.eqb s "")
  | JArr _ | JObj _ => true
  end.

Definition nullish (v : jsval) : bool :=
  match v with JUndef | JNull => true | _ => false end.

(** [a ?? b] *)
Definition coalesce (a b : jsval) : jsval := if nullish a then b else a.

(** [a || b] *)
Definition js_or (a b : jsval) : jsval := if truthy a then a else b.

Fixpoint assoc_get (k : string) (fs : list (string * jsval)) : jsval :=
  match fs with
  | [] => JUndef
  | (k', v) :: fs' => if String.eqb k k' then v else assoc_get k fs'
  end.

(** Property read [v.k] on a non-nullish value, for the own data
    properties the worker reads ([message], [name], [download], [results],
    ...).  Primitives and arrays carry none of these. *)
Definition get (v : jsval) (k : string) : jsval :=
  match v with
  | JObj fs => assoc_get k fs
  | _ => JUndef
  end.

(** [v?.k] *)
Definition get_opt (v : jsval) (k : string) : jsval :=
  if nullish v then JUndef else get v k.

(** [Array.isArray v] *)
Definition isArray (v : jsval) : bool :=
  match v with JArr _ => true | _ => false end.

(** ** Strings *)

(** [String.prototype.toLowerCase] on ASCII text: the model's strings are
    sequences of ASCII characters, and on those the JavaScript mapping is
    exactly [A-Z] to [a-z].  Non-ASCII characters, whose Unicode case
    mapping also lowers e.g. U+212A KELVIN SIGN to [k], are outside the
    model. *)
Definition lower_ascii (c : ascii) : ascii :=
  let n := nat_of_ascii c in
  if (Nat.leb 65 n && Nat.leb n 90)%bool then ascii_of_nat (n + 32) else c.

Fixpoint toLowerCase (s : string) : string :=
  match s with
  | EmptyString => EmptyString
  | String c s' => String (lower_ascii c) (toLowerCase s')
  end.

(** [s.includes(sub)] *)
Fixpoint includes (s sub : string) : bool :=
  prefix sub s ||
  match s with
  | EmptyString => false
  | String _ s' => includes s' sub
  end.

(** ** [categorizeError] *)

(** A computation that may throw a [TypeError]: [None] is the throw. *)
Definition throws (A : Type) := option A.
Definition ret {A} (a : A) : throws A := Some a.
Definition bind {A B} (m : throws A) (k : A -> throws B) : throws B :=
  match m with Some a => k a | None => None end.
Notation "x <- m ;; k" := (bind m (fun x => k)) (at level 61, m at next level, right associativity).

(** [v?.toLowerCase()]: an absent value short-circuits to [undefined]; a
    string is lower-cased; on any other value [toLowerCase] is not a
    function and the call throws. *)
Definition opt_toLowerCase (v : jsval) : throws jsval :=
  match v with
  | JUndef | JNull => ret JUndef
  | JStr s => ret (JStr (toLowerCase s))
  | _ => None
  end.

(** [error?.<field>?.toLowerCase() || ''], as a string. *)
Definition lowered_field (error : jsval) (field : string) : throws string :=
  v <- opt_toLowerCase (get_opt error field) ;;
  match js_or v (JStr "") with
  | JStr s => ret s
  | _ => ret ""
  end.

Record errorInfo := mkErrorInfo { type : string; userMessage : string }.

Definition network_info : errorInfo :=
  mkErrorInfo "network" "Network connection issue. Please check your internet connection.".
Definition rate_limit_info : errorInfo :=
  mkErrorInfo "rate-limit" "Too many requests. Please wait a moment and try again.".
Definition security_info : errorInfo :=
  mkErrorInfo "security" "Connection blocked. Please check your browser settings.".
Definition unknown_info : errorInfo :=
  mkErrorInfo "unknown" "Test failed. Please try again.".

(** [categorizeError(error)]; [onLine] is [navigator.onLine]. *)
Definition categorizeError (onLine : bool) (error : jsval) : throws errorInfo :=
  message <- lowered_field error "message" ;;
  name <- lowered_field error "name" ;;
  if (includes message "network" || includes message "fetch" ||
      includes message "timeout" || includes message "connection" ||
      String.eqb name "networkerror" || negb onLine)%bool
  then ret network_info
  else if (includes message "429" || includes message "rate limit" ||
           includes message "too many requests")%bool
  then ret rate_limit_info
  else if (includes message "cors" || includes message "blocked" ||
           includes message "security")%bool
  then ret security_info
  else ret unknown_info.

(** ** [persistResult] and the stored history *)

(** [Number.isFinite(v)]: [false] on every non-number. *)
Definition js_isFinite (v : jsval) : bool :=
  match v with JNum f => isFinite f | _ => false end.

(** The read-side filter of [persistResult]:
    [item && typeof item === 'object' && typeof item.download === 'number'
     && Number.isFinite(item.download)]. *)
Definition valid_item (item : jsval) : bool :=
  truthy item &&
  String.eqb (typeof item) "object" &&
  String.eqb (typeof (get item "download")) "number" &&
  js_isFinite (get item "download").

(** [let prev = []; if (Array.isArray(results)) prev = results.filter(...)].
    The [try]/[catch] around it resets [prev] to [[]]; on data read back
    from storage (plain JSON-like values, no getters) the filter does not
    throw, so the [catch] branch is never taken. *)
Definition sanitize (results : jsval) : list jsval :=
  match results with
  | JArr items => filter valid_item items
  | _ => []
  end.

(** The ambient conditions a handler runs under: [navigator.onLine],
    [Date.now()], and whether the storage read or write of this call
    reports [chrome.runtime.lastError]. *)
Record env := mkEnv {
  onLine : bool;
  now : spec_float;
  readFails : bool;
  writeFails : bool
}.

(** [const entry = { ts, download, upload: upload ?? null, ... }] *)
Definition mk_entry (E : env) (result : jsval) : jsval :=
  JObj [("ts", JNum (now E));
        ("download", get result "download");
        ("upload", coalesce (get result "upload") JNull);
        ("latency", coalesce (get result "latency") JNull);
        ("jitter", coalesce (get result "jitter") JNull);
        ("units", JStr "Mbps")].

(** The object [chrome.storage.local.get(['results'])] hands its callback,
    given the value stored under [results] ([None]: key absent). *)
Definition storage_data (stored : option jsval) : jsval :=
  JObj (match stored with Some v => [("results", v)] | None => [] end).

(** [persistResult(result)], with the callback of [chrome.storage.local.get]
    run to completion: the new value under the [results] key. *)
Definition persistResult (E : env) (result : jsval) (stored : option jsval)
  : option jsval :=
  let download := get result "download" in
  if negb (String.eqb (typeof download) "number") || negb (js_isFinite download)
  then stored                                   (* invalid result: skip *)
  else
    let entry := mk_entry E result in
    if readFails E then stored                  (* storage read error: return *)
    else
      let prev := sanitize (get_opt (storage_data stored) "results") in
      let next := firstn 2 (entry :: prev) in
      if writeFails E then stored else Some (JArr next).

(** ** The Cloudflare wrapper's [onFinish] *)

(** The fields of [results.getSummary()]: a number or absent. *)
Record summary := mkSummary {
  s_download : option spec_float;
  s_upload : option spec_float;
  s_latency : option spec_float;
  s_jitter : option spec_float;
  s_downLoadedLatency : option spec_float;
  s_upLoadedLatency : option spec_float
}.

Definition of_field (o : option spec_float) : jsval :=
  match o with Some f => JNum f | None => JUndef end.

Definition one_e6 : spec_float := num_of_Z 1000000.

(** [summary.x ? summary.x / 1e6 : null] *)
Definition to_mbps (o : option spec_float) : jsval :=
  match o with
  | Some f => if truthy (JNum f) then JNum (SFdiv prec emax f one_e6) else JNull
  | None => JNull
  end.

(** [summary.x || null] *)
Definition or_null (o : option spec_float) : jsval := js_or (of_field o) JNull.

(** [finalResults], the object passed to [onComplete]. *)
Definition finalResults (sm : summary) (timestamp : spec_float) : jsval :=
  JObj [("download", to_mbps (s_download sm));
        ("upload", to_mbps (s_upload sm));
        ("latency", or_null (s_latency sm));
        ("jitter", or_null (s_jitter sm));
        ("downLoadedLatency", or_null (s_downLoadedLatency sm));
        ("upLoadedLatency", or_null (s_upLoadedLatency sm));
        ("timestamp", JNum timestamp)].

(** ** The worker's [STATE] and its event handlers *)

(** [STATE]; [currentTest] only holds the engine handle and is not read by
    any decision, so it is left out. *)
Record STATE_t := mkSTATE {
  testRunning : bool;
  lastResult : jsval;
  retryCount : Z;
  maxRetries : Z;
  backoffDelay : Z
}.

Definition STATE0 : STATE_t := mkSTATE false JNull 0 3 1000.

(** Status payloads of [FAST_SPEED_STATUS]; [StRetrying n] is the string
    [`Retrying in ${n}s...`]. *)
Inductive status := StStarting | StRetrying (secs : Z).

(** Messages sent with [chrome.runtime.sendMessage]. *)
Inductive msg :=
| MStatus (s : status)
| MDoneOk (download upload latency jitter : jsval)
| MDoneFail (reason userMessage : string).

Definition offline_msg : msg :=
  MDoneFail "offline" "No internet connection detected. Please check your connection.".

(** The reply of the [START_TEST] handler: [{ok: true}] or
    [{ok: false, reason}]. *)
Inductive response := RespOk | RespRejected (reason : string).

Record world := mkWorld {
  state : STATE_t;
  sent : list msg;        (* messages sent so far, oldest first *)
  timers : list Z;        (* delays of the pending [setTimeout] retries *)
  engineStarts : nat;     (* calls of [speedTest.start()] *)
  stored : option jsval   (* [chrome.storage.local] key [results] *)
}.

Definition world0 : world := mkWorld STATE0 [] [] 0 None.

Definition set_running (b : bool) (s : STATE_t) : STATE_t :=
  mkSTATE b (lastResult s) (retryCount s) (maxRetries s) (backoffDelay s).
Definition set_retryCount (n : Z) (s : STATE_t) : STATE_t :=
  mkSTATE (testRunning s) (lastResult s) n (maxRetries s) (backoffDelay s).
Definition set_lastResult (r : jsval) (s : STATE_t) : STATE_t :=
  mkSTATE (testRunning s) r (retryCount s) (maxRetries s) (backoffDelay s).

Definition set_state (s : STATE_t) (w : world) : world :=
  mkWorld s (sent w) (timers w) (engineStarts w) (stored w).
Definition send (m : msg) (w : world) : world :=
  mkWorld (state w) (sent w ++ [m]) (timers w) (engineStarts w) (stored w).
Definition arm_timer (delay : Z) (w : world) : world :=
  mkWorld (state w) (sent w) (timers w ++ [delay]) (engineStarts w) (stored w).
Definition engine_start (w : world) : world :=
  mkWorld (state w) (sent w) (timers w) (S (engineStarts w)) (stored w).
Definition set_stored (v : option jsval) (w : world) : world :=
  mkWorld (state w) (sent w) (timers w) (engineStarts w) v.

(** [startCloudflareSpeedTest()] up to the return of [speedTest.start()].
    The wrapper's [start] catches its own exceptions and reports them through
    [onError] (the [on_error] event below), so the worker's [catch] branch
    is not reached. *)
Definition startCloudflareSpeedTest (E : env) (w : world) : world :=
  if testRunning (state w) then w
  else if negb (onLine E) then send offline_msg w
  else engine_start
         (send (MStatus StStarting)
            (set_state (set_running true (state w)) w)).

(** The [START_TEST] case of the [chrome.runtime.onMessage] listener. *)
Definition on_start_request (E : env) (w : world) : response * world :=
  if testRunning (state w) then (RespRejected "already-running", w)
  else (RespOk, startCloudflareSpeedTest E w).

(** [Math.ceil(a / b)] for integers, [b > 0]. *)
Definition ceil_div (a b : Z) : Z := (- ((- a) / b))%Z.

Definition is_retryable (t : string) : bool :=
  String.eqb t "network" || String.eqb t "rate-limit".

(** The [onError] callback.  When [categorizeError] throws, the exception
    leaves the callback after [testRunning] was cleared. *)
Definition on_error (E : env) (error : jsval) (w : world) : world :=
  let w1 := set_state (set_running false (state w)) w in
  match categorizeError (onLine E) error with
  | None => w1
  | Some info =>
      let s := state w1 in
      if is_retryable (type info) && Z.ltb (retryCount s) (maxRetries s) then
        let rc := (retryCount s + 1)%Z in
        let delay := (backoffDelay s * 2 ^ (rc - 1))%Z in
        arm_timer delay
          (send (MStatus (StRetrying (ceil_div delay 1000)))
             (set_state (set_retryCount rc s) w1))
      else
        send (MDoneFail (type info) (userMessage info))
          (set_state (set_retryCount 0 s) w1)
  end.

(** A pending retry timer fires: [startCloudflareSpeedTest()]. *)
Definition fire_timer (E : env) (w : world) : world :=
  match timers w with
  | [] => w
  | _ :: rest =>
      startCloudflareSpeedTest E
        (mkWorld (state w) (sent w) rest (engineStarts w) (stored w))
  end.

(** The [onComplete] callback, with [persistResult] run to completion. *)
Definition on_complete (E : env) (result : jsval) (w : world) : world :=
  let s := state w in
  let last := JObj [("download", coalesce (get result "download") JNull);
                    ("upload", coalesce (get result "upload") JNull);
                    ("latency", coalesce (get result "latency") JNull);
                    ("jitter", coalesce (get result "jitter") JNull);
                    ("units", JStr "Mbps");
                    ("ts", JNum (now E))] in
  let w1 := set_state (set_lastResult last (set_retryCount 0 (set_running false s))) w in
  let w2 := send (MDoneOk (coalesce (get result "download") JNull)
                          (coalesce (get result "upload") JNull)
                          (coalesce (get result "latency") JNull)
                          (coalesce (get result "jitter") JNull)) w1 in
  set_stored (persistResult E result (stored w2)) w2.

(** ** The whole [chrome.runtime.onMessage] listener *)

(** What the listener passes to [sendResponse]: nothing, the [START_TEST]
    reply, or [{running, lastResult}] for [GET_TEST_STATE]. *)
Inductive reply :=
| NoReply
| ReplyStart (r : response)
| ReplyState (running : bool) (last : jsval).

(** [if (!message || !message.type) return; switch (message.type) ...];
    [switch] compares with [===]. *)
Definition on_message (E : env) (message : jsval) (w : world) : reply * world :=
  if negb (truthy message) || negb (truthy (get message "type")) then (NoReply, w)
  else
    match get message "type" with
    | JStr t =>
        if String.eqb t "START_TEST" then
          let '(r, w') := on_start_request E w in (ReplyStart r, w')
        else if String.eqb t "GET_TEST_STATE" then
          (ReplyState (testRunning (state w)) (lastResult (state w)), w)
        else (NoReply, w)
    | _ => (NoReply, w)
    end.

(** The events the worker reacts to. *)
Inductive event :=
| EvMessage (m : jsval)
| EvEngineError (e : jsval)
| EvEngineComplete (r : jsval)
| EvTimer.

Definition step (E : env) (ev : event) (w : world) : world :=
  match ev with
  | EvMessage m => snd (on_message E m w)
  | EvEngineError e => on_error E e w
  | EvEngineComplete r => on_complete E r w
  | EvTimer => fire_timer E w
  end.

(** A run of events, each under its own ambient conditions. *)
Fixpoint run (evs : list (env * event)) (w : world) : world :=
  match evs with
  | [] => w
  | (E, ev) :: evs' => run evs' (step E ev w)
  end.

(** Successive calls of [persistResult], each under its own conditions. *)
Fixpoint persist_all (calls : list (env * jsval)) (st : option jsval) : option jsval :=
  match calls with
  | [] => st
  | (E, r) :: calls' => persist_all calls' (persistResult E r st)
  end.

(** ** The wrapper's control interface ([createSpeedTest]) *)

(** The closure state of one [createSpeedTest] instance.  [engine] is the
    current [SpeedTest] engine, numbered in order of construction; the
    counters record the calls made on engines; [callbacks] the calls of the
    worker's [onComplete] / [onError]. *)
Inductive callback := CbComplete (r : jsval) | CbError (e : jsval).

Record speedtest := mkSpeedtest {
  engine : option nat;
  isRunning : bool;
  startTime : option spec_float;
  created : nat;
  plays : nat;
  pauses : nat;
  restarts : nat;
  callbacks : list callback
}.

Definition speedtest0 : speedtest := mkSpeedtest None false None 0 0 0 0 [].

(** What can throw inside [start]'s [try]: nothing, [new SpeedTest(config)]
    or [engine.play()], with an [Error] whose [message] is given. *)
Inductive start_fault := NoFault | CtorThrows (message : jsval) | PlayThrows (message : jsval).

(** The [{ok}] / [{ok: false, reason}] objects the wrapper returns. *)
Inductive wresult := WOk | WFail (reason : jsval).

(** [start()]. *)
Definition st_start (now : spec_float) (fault : start_fault) (t : speedtest) : wresult * speedtest :=
  if isRunning t then (WFail (JStr "already-running"), t)
  else
    let fail (eng : option nat) (made played : nat) (msg : jsval) :=
      (WFail msg,
       mkSpeedtest eng false (Some now) made played (pauses t) (restarts t)
         (callbacks t ++ [CbError (js_or msg (JStr "Failed to start speed test"))])) in
    match fault with
    | CtorThrows msg => fail (engine t) (created t) (plays t) msg
    | PlayThrows msg => fail (Some (created t)) (S (created t)) (S (plays t)) msg
    | NoFault =>
        (WOk, mkSpeedtest (Some (created t)) (isRunning t) (Some now) (S (created t))
                (S (plays t)) (pauses t) (restarts t) (callbacks t))
    end.

(** [pause()]. *)
Definition st_pause (t : speedtest) : wresult * speedtest :=
  match engine t with
  | Some e =>
      if isRunning t then
        (WOk, mkSpeedtest (Some e) false (startTime t) (created t) (plays t)
                (S (pauses t)) (restarts t) (callbacks t))
      else (WFail (JStr "not-running"), t)
  | None => (WFail (JStr "not-running"), t)
  end.

(** [restart()].  [engine.restart()] is not inside a [try]: when it
    throws ([restart_throws]) the exception leaves [restart] ([None]),
    after [startTime] was set. *)
Definition st_restart (now : spec_float) (restart_throws : bool) (fault : start_fault)
  (t : speedtest) : option wresult * speedtest :=
  match engine t with
  | Some e =>
      (if restart_throws then None else Some WOk,
       mkSpeedtest (Some e) (isRunning t) (Some now) (created t) (plays t)
         (pauses t) (S (restarts t)) (callbacks t))
  | None => let '(r, t') := st_start now fault t in (Some r, t')
  end.

(** [getStatus()]: [{isRunning, hasEngine}]. *)
Definition st_getStatus (t : speedtest) : bool * bool :=
  (isRunning t, match engine t with Some _ => true | None => false end).

(** [engine.onRunningChange = (running) => { isRunning = running; }] *)
Definition st_onRunningChange (running : bool) (t : speedtest) : speedtest :=
  mkSpeedtest (engine t) running (startTime t) (created t) (plays t)
    (pauses t) (restarts t) (callbacks t).

(** [engine.onFinish]: [isRunning = false; onComplete(finalResults)]. *)
Definition st_onFinish (sm : summary) (now : spec_float) (t : speedtest) : speedtest :=
  mkSpeedtest (engine t) false (startTime t) (created t) (plays t)
    (pauses t) (restarts t) (callbacks t ++ [CbComplete (finalResults sm now)]).

(** [engine.onError]: [isRunning = false; onError(error)]. *)
Definition st_onError (error : jsval) (t : speedtest) : speedtest :=
  mkSpeedtest (engine t) false (startTime t) (created t) (plays t)
    (pauses t) (restarts t) (callbacks t ++ [CbError error]).

(** ** Sample inputs *)

Definition E_online : env := mkEnv true (num_of_Z 1700000000000) false false.

Example categorize_429 :
  categorizeError true (JObj [("message", JStr "HTTP 429: too many requests")])
  = Some rate_limit_info.
Proof. reflexivity. Qed.

Example persist_first :
  persistResult E_online (JObj [("download", JNum (num_of_Z 50))]) None
  = Some (JArr [mk_entry E_online (JObj [("download", JNum (num_of_Z 50))])]).
Proof. reflexivity. Qed.

Definition network_error : jsval := JObj [("message", JStr "NetworkError when attempting to fetch resource.")].

(** ** C1: the [already-running] guard *)




(** ** C2: backoff delays *)

(** C2: with [backoffDelay = 1000], [maxRetries = 3] and a retryable
    failure at retry count [c] in [0..2], the retry timer armed by
    [onError] has delay [1000 * 2^c], that is 1000, 2000 and 4000 ms for
    the first, second and third retry. *)
Theorem backoff_delays_1000_2000_4000 : forall E error w info,
  categorizeError (onLine E) error = Some info ->
  is_retryable (type info) = true ->
  maxRetries (state w) = 3%Z ->
  backoffDelay (state w) = 1000%Z ->
  (0 <= retryCount (state w) < 3)%Z ->
  timers (on_error E error w) = timers w ++ [(1000 * 2 ^ retryCount (state w))%Z] /\
  timers (on_error E error w) =
    timers w ++ [nth (Z.to_nat (retryCount (state w))) [1000%Z; 2000%Z; 4000%Z] 0%Z].
Proof.
  intros E error w info Hc Hr Hm Hb Hrange.
  unfold on_error. rewrite Hc. cbn [state set_state set_running retryCount maxRetries backoffDelay].
  rewrite Hr, Hm, Hb.
  replace (retryCount (state w) <? 3)%Z with true by (symmetry; apply Z.ltb_lt; lia).
  cbn [andb arm_timer send set_state timers].
  replace (retryCount (state w) + 1 - 1)%Z with (retryCount (state w)) by lia.
  split; [reflexivity |].
  destruct Hrange as [H0 H3].
  assert (retryCount (state w) = 0 \/ retryCount (state w) = 1 \/ retryCount (state w) = 2)%Z
    as [-> | [-> | ->]] by lia; reflexivity.
Qed.

Lemma backoff_delays_1000_2000_4000_witness :
  categorizeError (onLine E_online) network_error = Some network_info /\
  is_retryable (type network_info) = true /\
  maxRetries (state world0) = 3%Z /\
  backoffDelay (state world0) = 1000%Z /\
  (0 <= retryCount (state world0) < 3)%Z /\
  timers (on_error E_online network_error world0) = [1000%Z].
Proof.
  refine (conj eq_refl (conj eq_refl (conj eq_refl (conj eq_refl (conj _ _))))).
  - simpl; lia.
  - destruct (backoff_delays_1000_2000_4000 E_online network_error world0 network_info
                eq_refl eq_refl eq_refl eq_refl) as [H _].
    + simpl; lia.
    + exact H.
Defined.

(** ** C3: the read-side filter *)

(** C3: whatever value is read under [results] (absent, [null], a
    non-array, or an array with malformed elements), every element kept by
    the filter is a non-null object whose [download] is a finite number, and
    a non-array value gives the empty history.  The filter is a total
    function: it never throws. *)
Theorem sanitize_output_valid : forall v,
  (forall x, In x (sanitize v) ->
     x <> JNull /\ typeof x = "object" /\
     exists f, get x "download" = JNum f /\ isFinite f = true) /\
  (isArray v = false -> sanitize v = []).
Proof.
  intros v. split.
  - intros x Hin. destruct v; simpl in Hin; try contradiction.
    apply filter_In in Hin as [_ Hv]. unfold valid_item in Hv.
    apply andb_prop in Hv as [Hv Hfin]. apply andb_prop in Hv as [Hv Hnum].
    apply andb_prop in Hv as [Htr Hobj].
    apply String.eqb_eq in Hobj.
    split; [intros ->; discriminate |]. split; [exact Hobj |].
    destruct (get x "download"); try discriminate.
    exists f. split; [reflexivity | exact Hfin].
  - destruct v; simpl; congruence.
Qed.

(** ** C4: the retry decision *)

(** C4: for a failure that [categorizeError] classifies (with
    [maxRetries = 3]), [onError] retries exactly when the kind is [network]
    or [rate-limit] and [retryCount < 3]; a retry adds 1 to [retryCount],
    arms one timer and sends only a status message; otherwise [retryCount]
    is reset to 0, no timer is armed and exactly one [done:false] message
    carrying the kind and its user message is sent. *)
Theorem on_error_retry_decision : forall E error w info,
  categorizeError (onLine E) error = Some info ->
  maxRetries (state w) = 3%Z ->
  (is_retryable (type info) = true /\ (retryCount (state w) < 3)%Z ->
     retryCount (state (on_error E error w)) = (retryCount (state w) + 1)%Z /\
     (exists d, timers (on_error E error w) = timers w ++ [d]) /\
     (exists st, sent (on_error E error w) = sent w ++ [MStatus st])) /\
  (~ (is_retryable (type info) = true /\ (retryCount (state w) < 3)%Z) ->
     retryCount (state (on_error E error w)) = 0%Z /\
     timers (on_error E error w) = timers w /\
     sent (on_error E error w) = sent w ++ [MDoneFail (type info) (userMessage info)]).
Proof.
  intros E error w info Hc Hm.
  unfold on_error. rewrite Hc. cbn [state set_state set_running retryCount maxRetries].
  rewrite Hm.
  destruct (is_retryable (type info)) eqn:Hr;
    destruct (Z.ltb_spec (retryCount (state w)) 3) as [Hlt | Hge]; cbn [andb].
  - split.
    + intros _. split; [reflexivity |]. split; eexists; reflexivity.
    + intros Hn. exfalso. tauto.
  - split.
    + intros [_ Hlt]. lia.
    + intros _. repeat split.
  - split.
    + intros [Hf _]. discriminate.
    + intros _. repeat split.
  - split.
    + intros [Hf _]. discriminate.
    + intros _. repeat split.
Qed.

Lemma on_error_retry_decision_witness :
  categorizeError (onLine E_online) network_error = Some network_info /\
  maxRetries (state world0) = 3%Z /\
  retryCount (state (on_error E_online network_error world0)) = 1%Z.
Proof.
  split; [reflexivity |]. split; [reflexivity |].
  destruct (on_error_retry_decision E_online network_error world0 network_info
              eq_refl eq_refl) as [Hretry _].
  destruct Hretry as [H _].
  - split; [reflexivity | simpl; lia].
  - rewrite H. reflexivity.
Defined.

(** ** C5: the history cap *)

(** C5: when [persistResult] stores a valid result (finite numeric
    [download], no storage error), the stored history has at most 2
    entries and begins with the new entry; when the history already held 2
    valid entries, the older one is dropped. *)
Theorem persist_history_capped : forall E result st,
  String.eqb (typeof (get result "download")) "number" = true ->
  js_isFinite (get result "download") = true ->
  readFails E = false ->
  writeFails E = false ->
  exists next,
    persistResult E result st = Some (JArr next) /\
    (List.length next <= 2)%nat /\
    hd_error next = Some (mk_entry E result) /\
    (forall a b, st = Some (JArr [a; b]) -> valid_item a = true -> valid_item b = true ->
                 next = [mk_entry E result; a]).
Proof.
  intros E result st Hnum Hfin Hrd Hwr.
  unfold persistResult. rewrite Hnum, Hfin, Hrd, Hwr. cbn [negb orb].
  eexists. split; [reflexivity |].
  split; [apply firstn_le_length |].
  split; [reflexivity |].
  intros a b -> Ha Hb.
  change (firstn 2 (mk_entry E result :: filter valid_item [a; b]) = [mk_entry E result; a]).
  cbn [filter]. rewrite Ha, Hb. reflexivity.
Qed.

Definition result_50 : jsval := JObj [("download", JNum (num_of_Z 50))].
Definition entry_a : jsval := JObj [("download", JNum (num_of_Z 10))].
Definition entry_b : jsval := JObj [("download", JNum (num_of_Z 20))].

Lemma persist_history_capped_witness :
  persistResult E_online result_50 (Some (JArr [entry_a; entry_b]))
  = Some (JArr [mk_entry E_online result_50; entry_a]).
Proof.
  destruct (persist_history_capped E_online result_50 (Some (JArr [entry_a; entry_b]))
              eq_refl eq_refl eq_refl eq_refl) as [next [Hp [_ [_ Hdrop]]]].
  rewrite Hp, (Hdrop entry_a entry_b eq_refl eq_refl eq_refl). reflexivity.
Defined.

(** ** C6, C9: the error classifier *)

(** Every result of [categorizeError] is one of its four literals. *)
Lemma categorizeError_cases : forall online e i,
  categorizeError online e = Some i ->
  i = network_info \/ i = rate_limit_info \/ i = security_info \/ i = unknown_info.
Proof.
  intros online e i. unfold categorizeError, bind.
  destruct (lowered_field e "message") as [m |]; [| discriminate].
  destruct (lowered_field e "name") as [nm |]; [| discriminate].
  repeat match goal with |- context [if ?c then _ else _] => destruct c end;
    unfold ret; intros H; injection H as <-; tauto.
Qed.

(** C6: the network check comes first.  For an error whose [message] and
    [name] are read without throwing (lower-cased to [m] and [nm]): when
    [navigator.onLine] is [false] the kind is [network] whatever the
    message; when online, if none of the network tests fires (no network
    keyword in [m], [nm] is not [networkerror]) and [m] contains [429],
    [rate limit] or [too many requests], the kind is [rate-limit]; and every
    result is one of the four fixed kind/message pairs. *)
Theorem categorize_priority : forall e m nm,
  lowered_field e "message" = Some m ->
  lowered_field e "name" = Some nm ->
  categorizeError false e = Some network_info /\
  ((includes m "network" || includes m "fetch" || includes m "timeout" ||
    includes m "connection" || String.eqb nm "networkerror")%bool = false ->
   (includes m "429" || includes m "rate limit" || includes m "too many requests")%bool = true ->
   categorizeError true e = Some rate_limit_info) /\
  (forall online i, categorizeError online e = Some i ->
     i = network_info \/ i = rate_limit_info \/ i = security_info \/ i = unknown_info).
Proof.
  intros e m nm Hm Hn. split; [| split].
  - unfold categorizeError. rewrite Hm, Hn. cbn [bind negb]. rewrite orb_true_r. reflexivity.
  - intros Hnet Hrate. unfold categorizeError. rewrite Hm, Hn. cbn [bind negb].
    rewrite Hnet, Hrate. reflexivity.
  - exact (fun online i => categorizeError_cases online e i).
Qed.

Definition error_429 : jsval := JObj [("message", JStr "HTTP 429: too many requests")].

Lemma categorize_priority_witness :
  lowered_field error_429 "message" = Some "http 429: too many requests" /\
  lowered_field error_429 "name" = Some "" /\
  categorizeError true error_429 = Some rate_limit_info.
Proof.
  assert (Hm : lowered_field error_429 "message" = Some "http 429: too many requests")
    by reflexivity.
  assert (Hn : lowered_field error_429 "name" = Some "") by reflexivity.
  split; [exact Hm |]. split; [exact Hn |].
  destruct (categorize_priority error_429 _ _ Hm Hn) as [_ [Hr _]].
  apply Hr; reflexivity.
Defined.







(** ** C7, C8, C10: the completion path *)

(** The world after [on_complete] keeps everything but [state], [sent]
    and [stored] of the world before. *)
Lemma on_complete_sent : forall E result w,
  sent (on_complete E result w) =
  sent w ++ [MDoneOk (coalesce (get result "download") JNull)
                     (coalesce (get result "upload") JNull)
                     (coalesce (get result "latency") JNull)
                     (coalesce (get result "jitter") JNull)].
Proof. reflexivity. Qed.

Lemma on_complete_stored : forall E result w,
  stored (on_complete E result w) = persistResult E result (stored w).
Proof. reflexivity. Qed.

(** C7: a completed run whose [download] is not a finite number ([NaN],
    [Infinity], [null], a string, ...) leaves the stored history unchanged,
    and the only message [onComplete] sends is the [done:true] one: no
    [done:false] is sent on that path. *)
Theorem nonfinite_download_not_persisted : forall E result w,
  (String.eqb (typeof (get result "download")) "number" &&
   js_isFinite (get result "download"))%bool = false ->
  stored (on_complete E result w) = stored w /\
  exists d u l j, sent (on_complete E result w) = sent w ++ [MDoneOk d u l j].
Proof.
  intros E result w H. split.
  - rewrite on_complete_stored. unfold persistResult.
    destruct (String.eqb (typeof (get result "download")) "number");
      destruct (js_isFinite (get result "download")); try discriminate; reflexivity.
  - do 4 eexists. apply on_complete_sent.
Qed.

Definition result_nan : jsval := JObj [("download", NaN)].

Lemma nonfinite_download_not_persisted_witness :
  stored (on_complete E_online result_nan (set_stored (Some (JArr [entry_a])) world0))
  = Some (JArr [entry_a]).
Proof.
  destruct (nonfinite_download_not_persisted E_online result_nan
              (set_stored (Some (JArr [entry_a])) world0) eq_refl) as [H _].
  exact H.
Defined.

Definition E_read_error : env := mkEnv true (num_of_Z 1700000000000) true false.

(** C8 (counterexample): with a storage read error, persisting a valid
    result writes nothing (an absent history stays absent), whereas
    continuing with an empty history, as a read that returns no [results]
    does, would store [[entry]]. *)
Lemma persist_read_error_writes_nothing :
  persistResult E_read_error result_50 None = None /\
  persistResult (mkEnv true (now E_read_error) false false) result_50 None
  = Some (JArr [mk_entry E_read_error result_50]).
Proof. split; reflexivity. Qed.

(** C8 (amended): on a storage read error the persistence step logs and
    returns without writing: the stored history is left as it was, the new
    result is not added, nothing is propagated to the run, whose [done:true]
    message is sent and whose [STATE] is reset as on any completion. *)
Theorem persist_read_error_keeps_history : forall E result w,
  readFails E = true ->
  stored (on_complete E result w) = stored w /\
  (exists d u l j, sent (on_complete E result w) = sent w ++ [MDoneOk d u l j]) /\
  testRunning (state (on_complete E result w)) = false /\
  retryCount (state (on_complete E result w)) = 0%Z.
Proof.
  intros E result w Hrd. split; [| split; [| split]].
  - rewrite on_complete_stored. unfold persistResult. rewrite Hrd.
    destruct (negb _ || negb _)%bool; reflexivity.
  - do 4 eexists. apply on_complete_sent.
  - reflexivity.
  - reflexivity.
Qed.

Lemma persist_read_error_keeps_history_witness :
  stored (on_complete E_read_error result_50 (set_stored (Some (JArr [entry_a])) world0))
  = Some (JArr [entry_a]).
Proof.
  destruct (persist_read_error_keeps_history E_read_error result_50
              (set_stored (Some (JArr [entry_a])) world0) eq_refl) as [H _].
  exact H.
Defined.

(** C10: when the engine's summary has no [download] or a zero one (bits
    per second), the wrapper's [finalResults] carries [download: null], and
    completing a run with that result leaves the stored history unchanged:
    the zero measurement never enters the history. *)
Theorem zero_download_reported_null : forall sm ts,
  (s_download sm = None \/ exists sg, s_download sm = Some (S754_zero sg)) ->
  get (finalResults sm ts) "download" = JNull /\
  (forall E w, stored (on_complete E (finalResults sm ts) w) = stored w).
Proof.
  intros sm ts Hd.
  assert (Hget : get (finalResults sm ts) "download" = JNull).
  { change (to_mbps (s_download sm) = JNull).
    destruct Hd as [-> | [sg ->]]; reflexivity. }
  split; [exact Hget |].
  intros E w. rewrite on_complete_stored. unfold persistResult. rewrite Hget.
  reflexivity.
Qed.

Definition summary_zero : summary :=
  mkSummary (Some (S754_zero false)) None None None None None.

Lemma zero_download_reported_null_witness :
  get (finalResults summary_zero (num_of_Z 1)) "download" = JNull.
Proof.
  destruct (zero_download_reported_null summary_zero (num_of_Z 1)
              (or_intror (ex_intro _ false eq_refl))) as [H _].
  exact H.
Defined.

(** * Further properties of the worker *)

Definition start_msg : jsval := JObj [("type", JStr "START_TEST")].
Definition state_msg : jsval := JObj [("type", JStr "GET_TEST_STATE")].

(** ** The message listener *)

(** After a run completes with result [r], a [GET_TEST_STATE] query replies
    [running: false] and a [lastResult] whose [download] is
    [r.download ?? null] and whose [units] is [Mbps], and the query itself
    changes nothing. *)
Theorem get_state_after_complete : forall E E' r w,
  exists last,
    on_message E' state_msg (on_complete E r w) =
      (ReplyState false last, on_complete E r w) /\
    get last "download" = coalesce (get r "download") JNull /\
    get last "units" = JStr "Mbps".
Proof. intros E E' r w. eexists. split; [reflexivity | split; reflexivity]. Qed.

(** A [START_TEST] while offline and idle is answered [{ok: true}], yet no
    run starts: the only effect is the [offline] [done:false] message. *)
Theorem start_request_offline : forall E w,
  onLine E = false -> testRunning (state w) = false ->
  on_message E start_msg w = (ReplyStart RespOk, send offline_msg w).
Proof.
  intros E w Hon Hr. unfold on_message. cbn -[on_start_request].
  unfold on_start_request, startCloudflareSpeedTest. rewrite Hr, Hon. reflexivity.
Qed.

Lemma start_request_offline_witness :
  on_message (mkEnv false (num_of_Z 1) false false) start_msg world0
  = (ReplyStart RespOk, send offline_msg world0).
Proof. apply start_request_offline; reflexivity. Defined.

(** ** Retry timers *)

(** A retry timer that fires while a run is executing is consumed and does
    nothing else: no engine start, no message, [STATE] unchanged. *)
Theorem fire_timer_while_running : forall E w d rest,
  timers w = d :: rest -> testRunning (state w) = true ->
  fire_timer E w = mkWorld (state w) (sent w) rest (engineStarts w) (stored w).
Proof.
  intros E w d rest Ht Hr. unfold fire_timer. rewrite Ht.
  unfold startCloudflareSpeedTest. cbn [state]. rewrite Hr. reflexivity.
Qed.

Lemma fire_timer_while_running_witness :
  let w := mkWorld (set_running true STATE0) [] [1000%Z] 1 None in
  fire_timer E_online w = mkWorld (state w) [] [] 1 None.
Proof. intros w. apply (fire_timer_while_running E_online w 1000%Z []); reflexivity. Defined.

(** A retry timer that fires while offline and while no run is executing
    ([testRunning] false) sends the [offline]
    [done:false] message and starts nothing, and [retryCount] keeps the
    value the failure gave it: it is not reset. *)
Theorem fire_timer_offline_keeps_count : forall E w d rest,
  timers w = d :: rest -> testRunning (state w) = false -> onLine E = false ->
  sent (fire_timer E w) = sent w ++ [offline_msg] /\
  retryCount (state (fire_timer E w)) = retryCount (state w) /\
  engineStarts (fire_timer E w) = engineStarts w /\
  testRunning (state (fire_timer E w)) = false.
Proof.
  intros E w d rest Ht Hr Hon. unfold fire_timer. rewrite Ht.
  unfold startCloudflareSpeedTest. cbn [state]. rewrite Hr, Hon.
  repeat split; assumption.
Qed.

Lemma fire_timer_offline_keeps_count_witness :
  let E := mkEnv false (num_of_Z 1) false false in
  let w := on_error E_online network_error (snd (on_start_request E_online world0)) in
  retryCount (state (fire_timer E w)) = 1%Z.
Proof.
  intros E w.
  destruct (fire_timer_offline_keeps_count E w 1000%Z [] eq_refl eq_refl eq_refl)
    as [_ [H _]].
  rewrite H. reflexivity.
Defined.

(** ** Failures *)

(** A string error, as the wrapper's [start] passes to [onError] when it
    fails, has no [message] property: online it is always classified
    [unknown] (offline [network]), whatever its text.  So online such a
    failure is never retried: [retryCount] is reset and one [done:false]
    with reason [unknown] is sent. *)
Theorem string_error_never_retried : forall E s w,
  categorizeError (onLine E) (JStr s) =
    Some (if onLine E then unknown_info else network_info) /\
  (onLine E = true ->
   retryCount (state (on_error E (JStr s) w)) = 0%Z /\
   timers (on_error E (JStr s) w) = timers w /\
   sent (on_error E (JStr s) w) =
     sent w ++ [MDoneFail "unknown" "Test failed. Please try again."]).
Proof.
  intros E s w.
  assert (Hc : categorizeError (onLine E) (JStr s) =
               Some (if onLine E then unknown_info else network_info)).
  { unfold categorizeError. destruct (onLine E); reflexivity. }
  split; [exact Hc |].
  intros Hon. rewrite Hon in Hc. unfold on_error. rewrite Hon, Hc.
  repeat split.
Qed.

Lemma string_error_never_retried_witness :
  sent (on_error E_online (JStr "network timeout") (snd (on_start_request E_online world0)))
  = [MStatus StStarting; MDoneFail "unknown" "Test failed. Please try again."].
Proof.
  destruct (string_error_never_retried E_online "network timeout"
              (snd (on_start_request E_online world0))) as [_ H].
  destruct (H eq_refl) as [_ [_ Hs]]. rewrite Hs. reflexivity.
Defined.

(** Starting idle with [retryCount = 0], a run that fails four times in a
    row with a retryable error (online, each retry timer fired) sends
    [starting] four times, retry statuses of 1 s, 2 s and 4 s, and then
    exactly one [done:false] carrying the kind and its message; the engine
    was started four times, no timer is left and [retryCount] is 0. *)
Theorem four_retryable_failures : forall now rd wr e info,
  categorizeError true e = Some info -> is_retryable (type info) = true ->
  let E := mkEnv true now rd wr in
  let w := run [(E, EvMessage start_msg); (E, EvEngineError e); (E, EvTimer);
                (E, EvEngineError e); (E, EvTimer); (E, EvEngineError e); (E, EvTimer);
                (E, EvEngineError e)] world0 in
  sent w = [MStatus StStarting; MStatus (StRetrying 1); MStatus StStarting;
            MStatus (StRetrying 2); MStatus StStarting; MStatus (StRetrying 4);
            MStatus StStarting; MDoneFail (type info) (userMessage info)] /\
  retryCount (state w) = 0%Z /\ timers w = [] /\ engineStarts w = 4 /\
  testRunning (state w) = false.
Proof.
  intros now rd wr e info Hc Hr E w. subst E w.
  cbn -[on_error categorizeError is_retryable].
  unfold on_error. cbn [onLine]. rewrite Hc.
  cbn -[categorizeError is_retryable]. rewrite Hr. cbn.
  repeat split.
Qed.

Lemma four_retryable_failures_witness :
  engineStarts (run [(E_online, EvMessage start_msg); (E_online, EvEngineError network_error);
                     (E_online, EvTimer); (E_online, EvEngineError network_error);
                     (E_online, EvTimer); (E_online, EvEngineError network_error);
                     (E_online, EvTimer); (E_online, EvEngineError network_error)] world0) = 4.
Proof.
  destruct (four_retryable_failures (now E_online) false false network_error network_info
              eq_refl eq_refl) as [_ [_ [_ [H _]]]].
  exact H.
Defined.

(** Three retryable failures followed by a completion: no [done:false] is
    ever sent, the completion sends [done:true], and [retryCount] is back
    to 0. *)
Theorem three_failures_then_success : forall now rd wr e info r,
  categorizeError true e = Some info -> is_retryable (type info) = true ->
  let E := mkEnv true now rd wr in
  let w := run [(E, EvMessage start_msg); (E, EvEngineError e); (E, EvTimer);
                (E, EvEngineError e); (E, EvTimer); (E, EvEngineError e); (E, EvTimer);
                (E, EvEngineComplete r)] world0 in
  sent w = [MStatus StStarting; MStatus (StRetrying 1); MStatus StStarting;
            MStatus (StRetrying 2); MStatus StStarting; MStatus (StRetrying 4);
            MStatus StStarting;
            MDoneOk (coalesce (get r "download") JNull) (coalesce (get r "upload") JNull)
                    (coalesce (get r "latency") JNull) (coalesce (get r "jitter") JNull)] /\
  retryCount (state w) = 0%Z /\ testRunning (state w) = false.
Proof.
  intros now rd wr e info r Hc Hr E w. subst E w.
  cbn -[on_error on_complete categorizeError is_retryable].
  unfold on_error. cbn [onLine]. rewrite Hc.
  cbn -[on_complete categorizeError is_retryable]. rewrite Hr. cbn -[persistResult].
  repeat split.
Qed.

Lemma three_failures_then_success_witness :
  retryCount (state (run [(E_online, EvMessage start_msg); (E_online, EvEngineError network_error);
                          (E_online, EvTimer); (E_online, EvEngineError network_error);
                          (E_online, EvTimer); (E_online, EvEngineError network_error);
                          (E_online, EvTimer); (E_online, EvEngineComplete result_50)] world0))
  = 0%Z.
Proof.
  destruct (three_failures_then_success (now E_online) false false network_error network_info
              result_50 eq_refl eq_refl) as [_ [H _]].
  exact H.
Defined.

(** ** Retry bounds over any run *)

(** The retry bookkeeping as [STATE] starts it: [maxRetries = 3],
    [backoffDelay = 1000], [0 <= retryCount <= 3], and every pending retry
    timer is 1000, 2000 or 4000 ms. *)
Definition retry_inv (w : world) : Prop :=
  maxRetries (state w) = 3%Z /\ backoffDelay (state w) = 1000%Z /\
  (0 <= retryCount (state w) <= 3)%Z /\
  Forall (fun d => d = 1000%Z \/ d = 2000%Z \/ d = 4000%Z) (timers w).

Lemma start_keeps_retry : forall E w,
  retryCount (state (startCloudflareSpeedTest E w)) = retryCount (state w) /\
  maxRetries (state (startCloudflareSpeedTest E w)) = maxRetries (state w) /\
  backoffDelay (state (startCloudflareSpeedTest E w)) = backoffDelay (state w) /\
  timers (startCloudflareSpeedTest E w) = timers w.
Proof.
  intros E w. unfold startCloudflareSpeedTest.
  destruct (testRunning (state w)); [repeat split |].
  destruct (negb (onLine E)); repeat split.
Qed.

Lemma message_keeps_retry : forall E m w,
  retryCount (state (snd (on_message E m w))) = retryCount (state w) /\
  maxRetries (state (snd (on_message E m w))) = maxRetries (state w) /\
  backoffDelay (state (snd (on_message E m w))) = backoffDelay (state w) /\
  timers (snd (on_message E m w)) = timers w.
Proof.
  intros E m w. unfold on_message.
  destruct (negb (truthy m) || negb (truthy (get m "type")))%bool; [repeat split |].
  destruct (get m "type"); try (repeat split; fail).
  destruct (String.eqb s "START_TEST").
  - unfold on_start_request. destruct (testRunning (state w)); [repeat split |].
    apply start_keeps_retry.
  - destruct (String.eqb s "GET_TEST_STATE"); repeat split.
Qed.

Lemma step_keeps_retry_inv : forall E ev w, retry_inv w -> retry_inv (step E ev w).
Proof.
  intros E ev w (Hm & Hb & Hr & Ht). destruct ev as [m | e | r |].
  - destruct (message_keeps_retry E m w) as (H1 & H2 & H3 & H4).
    unfold retry_inv. cbn [step]. rewrite H1, H2, H3, H4. auto.
  - cbn [step]. unfold on_error.
    destruct (categorizeError (onLine E) e) as [info |].
    + cbn [state set_state set_running retryCount maxRetries backoffDelay]. rewrite Hm, Hb.
      destruct (is_retryable (type info) && Z.ltb (retryCount (state w)) 3)%bool eqn:Hd.
      * apply andb_prop in Hd as [_ Hlt]. apply Z.ltb_lt in Hlt.
        unfold retry_inv; cbn. repeat split; try lia.
        apply Forall_app. split; [exact Ht |]. constructor; [| constructor].
        replace (retryCount (state w) + 1 - 1)%Z with (retryCount (state w)) by lia.
        assert (retryCount (state w) = 0 \/ retryCount (state w) = 1 \/
                retryCount (state w) = 2)%Z as [-> | [-> | ->]] by lia; cbn; auto.
      * unfold retry_inv; cbn. repeat split; auto; lia.
    + unfold retry_inv; cbn. auto.
  - unfold retry_inv; cbn. repeat split; auto; lia.
  - cbn [step]. unfold fire_timer. destruct (timers w) as [| d rest] eqn:Et.
    + unfold retry_inv. rewrite Et. auto.
    + inversion Ht as [| d' rest' Hd Hrest]; subst.
      destruct (start_keeps_retry E (mkWorld (state w) (sent w) rest (engineStarts w) (stored w)))
        as (H1 & H2 & H3 & H4).
      unfold retry_inv. rewrite H1, H2, H3, H4. cbn. auto.
Qed.

(** From a world with the initial retry settings, every run of events
    (any messages, engine failures, completions and timer firings, each
    under any ambient conditions) keeps [maxRetries = 3],
    [backoffDelay = 1000], [0 <= retryCount <= 3], and every pending retry
    timer at 1000, 2000 or 4000 ms. *)
Theorem run_keeps_retry_bounds : forall evs w, retry_inv w -> retry_inv (run evs w).
Proof.
  induction evs as [| [E ev] evs IH]; intros w Hw; [exact Hw |].
  cbn [run]. apply IH. apply step_keeps_retry_inv. exact Hw.
Qed.

Lemma run_keeps_retry_bounds_witness :
  retry_inv (run [(E_online, EvMessage start_msg); (E_online, EvEngineError network_error)]
                 world0).
Proof.
  apply run_keeps_retry_bounds. unfold retry_inv. cbn. repeat split; try lia; constructor.
Defined.

(** ** The stored history *)

Lemma mk_entry_valid : forall E r,
  js_isFinite (get r "download") = true -> valid_item (mk_entry E r) = true.
Proof.
  intros E r H. unfold valid_item, mk_entry. cbn [truthy get assoc_get].
  change (String.eqb "download" "ts") with false. cbn iota.
  change (String.eqb "download" "download") with true. cbn iota.
  destruct (get r "download"); try discriminate. exact H.
Qed.

Lemma filter_all_valid : forall l,
  Forall (fun x => valid_item x = true) l -> filter valid_item l = l.
Proof.
  induction l as [| x l IH]; intros H; [reflexivity |].
  inversion H as [| x' l' Hx Hl]; subst. cbn. rewrite Hx, IH by exact Hl. reflexivity.
Qed.

(** A history written by [persistResult] passes its own read-side filter
    unchanged: every stored entry has a finite numeric [download], and
    reading the history back gives exactly what was written. *)
Theorem persist_written_history_rereads : forall E r st,
  js_isFinite (get r "download") = true -> readFails E = false -> writeFails E = false ->
  exists next, persistResult E r st = Some (JArr next) /\
    Forall (fun x => valid_item x = true) next /\
    sanitize (JArr next) = next.
Proof.
  intros E r st Hfin Hrd Hwr.
  assert (Hnum : String.eqb (typeof (get r "download")) "number" = true)
    by (destruct (get r "download"); try discriminate; reflexivity).
  unfold persistResult. rewrite Hnum, Hfin, Hrd, Hwr. cbn [negb orb].
  eexists. split; [reflexivity |].
  assert (Hall : Forall (fun x => valid_item x = true)
                   (mk_entry E r :: sanitize (get_opt (storage_data st) "results"))).
  { constructor; [apply mk_entry_valid; exact Hfin |].
    apply Forall_forall. intros x Hx.
    destruct (get_opt (storage_data st) "results"); try contradiction.
    apply filter_In in Hx as [_ Hx]. exact Hx. }
  assert (Hf : Forall (fun x => valid_item x = true)
                 (firstn 2 (mk_entry E r :: sanitize (get_opt (storage_data st) "results")))).
  { rewrite <- (firstn_skipn 2) in Hall. apply Forall_app in Hall as [H _]. exact H. }
  split; [exact Hf |]. cbn [sanitize]. apply filter_all_valid. exact Hf.
Qed.

Lemma persist_written_history_rereads_witness :
  sanitize (JArr [mk_entry E_online result_50]) = [mk_entry E_online result_50].
Proof.
  destruct (persist_written_history_rereads E_online result_50 None eq_refl eq_refl eq_refl)
    as [next [Hp [_ Hs]]].
  cbn in Hp. injection Hp as <-. exact Hs.
Defined.

Lemma persist_all_app : forall pre post st,
  persist_all (pre ++ post) st = persist_all post (persist_all pre st).
Proof.
  induction pre as [| [E r] pre IH]; intros post st; [reflexivity |].
  cbn. apply IH.
Qed.

(** Whatever was stored before and whatever earlier calls did (failed
    reads or writes, invalid results included), after two last successful
    persists of valid results [r1] then [r2] the history is exactly
    [[entry r2, entry r1]]: newest first, older entries gone. *)
Theorem persist_last_two_wins : forall pre E1 r1 E2 r2 st,
  js_isFinite (get r1 "download") = true -> readFails E1 = false -> writeFails E1 = false ->
  js_isFinite (get r2 "download") = true -> readFails E2 = false -> writeFails E2 = false ->
  persist_all (pre ++ [(E1, r1); (E2, r2)]) st =
    Some (JArr [mk_entry E2 r2; mk_entry E1 r1]).
Proof.
  intros pre E1 r1 E2 r2 st Hf1 Hr1 Hw1 Hf2 Hr2 Hw2.
  rewrite persist_all_app. cbn [persist_all].
  generalize (persist_all pre st) as st0. intros st0.
  assert (Hn1 : String.eqb (typeof (get r1 "download")) "number" = true)
    by (destruct (get r1 "download"); try discriminate; reflexivity).
  assert (Hn2 : String.eqb (typeof (get r2 "download")) "number" = true)
    by (destruct (get r2 "download"); try discriminate; reflexivity).
  unfold persistResult at 2. rewrite Hn1, Hf1, Hr1, Hw1. cbn [negb orb].
  unfold persistResult. rewrite Hn2, Hf2, Hr2, Hw2. cbn [negb orb].
  change (get_opt (storage_data (Some (JArr ?l))) "results") with (JArr l).
  cbn [sanitize firstn filter]. rewrite (mk_entry_valid E1 r1 Hf1). reflexivity.
Qed.

Lemma persist_last_two_wins_witness :
  persist_all [(E_online, result_50); (E_online, result_50); (E_online, result_50)] None
  = Some (JArr [mk_entry E_online result_50; mk_entry E_online result_50]).
Proof.
  exact (persist_last_two_wins [(E_online, result_50)] E_online result_50 E_online result_50 None
           eq_refl eq_refl eq_refl eq_refl eq_refl eq_refl).
Defined.

(** * Properties of the wrapper's control interface *)

(** [start] is refused only once the engine has reported running through
    [onRunningChange]: a successful [start] leaves [isRunning] false, so a
    second [start] before that report is accepted and constructs a second
    engine; after [onRunningChange(true)], [start] returns
    [already-running] and changes nothing. *)
Theorem st_start_guard_needs_running_report : forall now1 now2 f t,
  isRunning t = false ->
  let t1 := snd (st_start now1 NoFault t) in
  fst (st_start now1 NoFault t) = WOk /\
  isRunning t1 = false /\
  fst (st_start now2 NoFault t1) = WOk /\
  created (snd (st_start now2 NoFault t1)) = S (S (created t)) /\
  st_start now2 f (st_onRunningChange true t1) =
    (WFail (JStr "already-running"), st_onRunningChange true t1).
Proof.
  intros now1 now2 f t Hr t1. subst t1. unfold st_start. rewrite Hr. cbn.
  repeat split.
Qed.

Lemma st_start_guard_needs_running_report_witness :
  created (snd (st_start (num_of_Z 2) NoFault (snd (st_start (num_of_Z 1) NoFault speedtest0))))
  = 2.
Proof.
  destruct (st_start_guard_needs_running_report (num_of_Z 1) (num_of_Z 2) NoFault speedtest0
              eq_refl) as [_ [_ [_ [H _]]]].
  exact H.
Defined.



(** After [pause] on a running engine, [start] is accepted and constructs
    a fresh engine (the paused one is abandoned), whereas [restart]
    (when [engine.restart()] does not throw) resumes the paused engine
    without constructing one. *)
Theorem st_pause_then_start_or_restart : forall now f t e,
  engine t = Some e -> isRunning t = true ->
  let t1 := snd (st_pause t) in
  fst (st_pause t) = WOk /\
  fst (st_start now NoFault t1) = WOk /\
  engine (snd (st_start now NoFault t1)) = Some (created t) /\
  created (snd (st_start now NoFault t1)) = S (created t) /\
  fst (st_restart now false f t1) = Some WOk /\
  engine (snd (st_restart now false f t1)) = Some e /\
  created (snd (st_restart now false f t1)) = created t.
Proof.
  intros now f t e He Hr t1. subst t1. unfold st_pause. rewrite He, Hr.
  repeat split.
Qed.

Lemma st_pause_then_start_or_restart_witness :
  let t := st_onRunningChange true (snd (st_start (num_of_Z 1) NoFault speedtest0)) in
  created (snd (st_start (num_of_Z 2) NoFault (snd (st_pause t)))) = 2.
Proof.
  intros t.
  destruct (st_pause_then_start_or_restart (num_of_Z 2) NoFault t 0 eq_refl eq_refl)
    as [_ [_ [_ [H _]]]].
  exact H.
Defined.
